(** * Income-tax regime analysis: the tax functions and the aggregation scripts

    A shallow embedding of [tax.py], [tax2.py] and [tax3.py].

    Numbers.  The scripts compute with Python ints and binary floats.  In
    the modules [Tax], [Tax2], [Tax3] every number is an exact rational
    ([Q]): the literal [0.05] is the rational 1/20, and [+], [-], [*], [/]
    are the field operations.  The rounding of binary floating point is not
    represented there; equalities between amounts are stated with [==]
    (equality of rationals).  The one float-only value the scripts can
    produce, numpy's [nan], is represented explicitly where it arises
    ([Np.mean]).

    Where the rounding decides a property (the order in which the per-slab
    totals are added up), the same code is embedded a second time in binary64
    arithmetic, on the kernel's primitive floats ([Tax3Float]).

    Errors.  A fragment of a script either yields a value or raises; this is
    the type [result].  The only exception the arithmetic of the scripts can
    raise is Python's [ZeroDivisionError]. *)

From Stdlib Require Import QArith Qminmax Lqa ZArith Lia List String Permutation.
From Stdlib Require PrimFloat FloatOps SpecFloat.
Import ListNotations.

Local Open Scope Q_scope.

(** ** Python and numpy primitives used by the scripts *)

(** Kinds of failure.  [ZeroDivisionError] is raised by Python's [/];
    the other three are the kinds named by the design document, which
    no statement of the scripts raises. *)
Inductive error_kind : Set :=
  | ZeroDivisionError
  | InvalidIncomeError
  | EmptyInputError
  | DomainError.

Inductive result (A : Type) : Type :=
  | Ok (a : A)
  | Raise (e : error_kind).

Arguments Ok {A} a.
Arguments Raise {A} e.

Module Py.

(** [max(a, b)] on two numbers: the first argument is kept unless the
    second is strictly greater. *)
Definition max (a b : Q) : Q := if Qle_bool b a then a else b.

(** [sum(xs)]: left-to-right accumulation starting from [0]. *)
Definition sum (xs : list Q) : Q := fold_left Qplus xs 0.

(** [a / b] on Python numbers. *)
Definition div (a b : Q) : result Q :=
  if Qeq_bool b 0 then Raise ZeroDivisionError else Ok (a / b).

(** Calling a function whose body is arithmetic and comparisons only
    (no [raise], no division): the call returns the value. *)
Definition call (f : Q -> Q) (x : Q) : result Q := Ok (f x).

End Py.

(** Sequencing of fragments that may raise: a later statement runs only
    if the earlier ones returned. *)
Definition bind {A B : Type} (m : result A) (k : A -> result B) : result B :=
  match m with
  | Ok a => k a
  | Raise e => Raise e
  end.

Notation "x <- m ;; k" := (bind m (fun x => k))
  (at level 61, m at next level, right associativity).

Module Np.

(** A numpy float64 scalar as far as the scripts can observe it:
    a number, or [nan]. *)
Inductive float64 : Set :=
  | Finite (q : Q)
  | NaN.

(** [a - b] on two one-dimensional arrays of the same length. *)
Definition sub (a b : list Q) : list Q :=
  map (fun p => fst p - snd p) (combine a b).

(** [np.mean(a)] on a one-dimensional array: the sum of the entries
    divided by their number.  On the empty array numpy divides 0.0 by 0,
    emits a RuntimeWarning and returns [nan]; it does not raise. *)
Definition mean (a : list Q) : float64 :=
  match a with
  | [] => NaN
  | _ :: _ => Finite (Py.sum a / inject_Z (Z.of_nat (List.length a)))
  end.

(** [np.clip(a, a_min, a_max)]: elementwise
    [minimum(maximum(a, a_min), a_max)]. *)
Definition clip (a : list Q) (a_min a_max : Q) : list Q :=
  map (fun x => Qmin (Qmax x a_min) a_max) a.

(** [x * n] for a float64 scalar [x] and a Python int [n]; [nan] times
    anything is [nan]. *)
Definition mul_int (x : float64) (n : Z) : float64 :=
  match x with
  | Finite q => Finite (q * inject_Z n)
  | NaN => NaN
  end.

End Np.

(** ** tax.py *)

Module Tax.

Definition old_tax (income : Q) : Q :=
  let taxable := Py.max (income - 50000) 0 in
  if Qle_bool taxable 250000 then 0
  else if Qle_bool taxable 500000 then (taxable - 250000) * 0.05
  else if Qle_bool taxable 1000000 then
    (250000 * 0.05) + (taxable - 500000) * 0.20
  else
    (250000 * 0.05) + (500000 * 0.20) + (taxable - 1000000) * 0.30.

Definition new_tax (income : Q) : Q :=
  let taxable := income - 75000 in
  if Qle_bool taxable 1200000 then 0
  else
    if Qle_bool taxable 400000 then 0
    else if Qle_bool taxable 800000 then (taxable - 400000) * 0.05
    else if Qle_bool taxable 1200000 then
      (400000 * 0.05) + (taxable - 800000) * 0.10
    else if Qle_bool taxable 1600000 then
      (400000 * 0.05) + (400000 * 0.10) + (taxable - 1200000) * 0.15
    else if Qle_bool taxable 2000000 then
      (400000 * 0.05) + (400000 * 0.10) + (400000 * 0.15)
      + (taxable - 1600000) * 0.20
    else if Qle_bool taxable 2400000 then
      (400000 * 0.05) + (400000 * 0.10) + (400000 * 0.15)
      + (400000 * 0.20) + (taxable - 2000000) * 0.25
    else
      (400000 * 0.05) + (400000 * 0.10) + (400000 * 0.15)
      + (400000 * 0.20) + (400000 * 0.25) + (taxable - 2400000) * 0.30.

(** The [if]/[elif] chain of [new_tax] on its own, as a function of the
    taxable income: what [new_tax] evaluates once the rebate test has
    failed.  Its first three branches cannot be reached from [new_tax]. *)
Definition new_tax_branches (taxable : Q) : Q :=
  if Qle_bool taxable 400000 then 0
  else if Qle_bool taxable 800000 then (taxable - 400000) * 0.05
  else if Qle_bool taxable 1200000 then
    (400000 * 0.05) + (taxable - 800000) * 0.10
  else if Qle_bool taxable 1600000 then
    (400000 * 0.05) + (400000 * 0.10) + (taxable - 1200000) * 0.15
  else if Qle_bool taxable 2000000 then
    (400000 * 0.05) + (400000 * 0.10) + (400000 * 0.15)
    + (taxable - 1600000) * 0.20
  else if Qle_bool taxable 2400000 then
    (400000 * 0.05) + (400000 * 0.10) + (400000 * 0.15)
    + (400000 * 0.20) + (taxable - 2000000) * 0.25
  else
    (400000 * 0.05) + (400000 * 0.10) + (400000 * 0.15)
    + (400000 * 0.20) + (400000 * 0.25) + (taxable - 2400000) * 0.30.

(** The simulation: per-sample liabilities and savings.  [incomes_sample]
    is drawn by numpy's random generator in the script; here it is an
    argument. *)
Definition total_taxpayers : Z := 80000000.

Definition old_taxes (incomes_sample : list Q) : list Q :=
  map old_tax incomes_sample.

Definition new_taxes (incomes_sample : list Q) : list Q :=
  map new_tax incomes_sample.

Definition tax_savings (incomes_sample : list Q) : list Q :=
  Np.sub (old_taxes incomes_sample) (new_taxes incomes_sample).

Definition avg_saving_sample (incomes_sample : list Q)
  : result Np.float64 :=
  Ok (Np.mean (tax_savings incomes_sample)).

(** The sample the script works on: the lognormal draw clipped to
    between 3 lakh and 50 lakh. *)
Definition incomes_sample (lognormal : list Q) : list Q :=
  Np.clip lognormal 300000 5000000.

(** [total_savings = avg_saving_sample * total_taxpayers]. *)
Definition total_savings (incomes_sample : list Q) : result Np.float64 :=
  avg <- avg_saving_sample incomes_sample ;;
  Ok (Np.mul_int avg total_taxpayers).

End Tax.

(** ** tax2.py *)

Module Tax2.

Definition old_tax (income : Q) : Q :=
  let taxable := Py.max (income - 50000) 0 in
  if Qle_bool taxable 250000 then 0
  else if Qle_bool taxable 500000 then (taxable - 250000) * 0.05
  else if Qle_bool taxable 1000000 then
    (250000 * 0.05) + (taxable - 500000) * 0.20
  else
    (250000 * 0.05) + (500000 * 0.20) + (taxable - 1000000) * 0.30.

(** As in tax.py except for the 20% branch, which subtracts
    [1200000] and then [400000]. *)
Definition new_tax (income : Q) : Q :=
  let taxable := income - 75000 in
  if Qle_bool taxable 1200000 then 0
  else
    if Qle_bool taxable 400000 then 0
    else if Qle_bool taxable 800000 then (taxable - 400000) * 0.05
    else if Qle_bool taxable 1200000 then
      (400000 * 0.05) + (taxable - 800000) * 0.10
    else if Qle_bool taxable 1600000 then
      (400000 * 0.05) + (400000 * 0.10) + (taxable - 1200000) * 0.15
    else if Qle_bool taxable 2000000 then
      (400000 * 0.05) + (400000 * 0.10) + (400000 * 0.15)
      + (taxable - 1200000 - 400000) * 0.20
    else if Qle_bool taxable 2400000 then
      (400000 * 0.05) + (400000 * 0.10) + (400000 * 0.15)
      + (400000 * 0.20) + (taxable - 2000000) * 0.25
    else
      (400000 * 0.05) + (400000 * 0.10) + (400000 * 0.15)
      + (400000 * 0.20) + (400000 * 0.25) + (taxable - 2400000) * 0.30.

End Tax2.

(** ** tax3.py *)

Module Tax3.

Definition old_tax (income : Q) : Q :=
  let taxable := Py.max (income - 50000) 0 in
  if Qle_bool taxable 250000 then 0
  else if Qle_bool taxable 500000 then (taxable - 250000) * 0.05
  else if Qle_bool taxable 1000000 then
    (250000 * 0.05) + (taxable - 500000) * 0.20
  else
    (250000 * 0.05) + (500000 * 0.20) + (taxable - 1000000) * 0.30.

Definition new_tax (income : Q) : Q :=
  let taxable := income - 75000 in
  if Qle_bool taxable 1200000 then 0
  else
    if Qle_bool taxable 400000 then 0
    else if Qle_bool taxable 800000 then (taxable - 400000) * 0.05
    else if Qle_bool taxable 1200000 then
      (400000 * 0.05) + (taxable - 800000) * 0.10
    else if Qle_bool taxable 1600000 then
      (400000 * 0.05) + (400000 * 0.10) + (taxable - 1200000) * 0.15
    else if Qle_bool taxable 2000000 then
      (400000 * 0.05) + (400000 * 0.10) + (400000 * 0.15)
      + (taxable - 1600000) * 0.20
    else if Qle_bool taxable 2400000 then
      (400000 * 0.05) + (400000 * 0.10) + (400000 * 0.15)
      + (400000 * 0.20) + (taxable - 2000000) * 0.25
    else
      (400000 * 0.05) + (400000 * 0.10) + (400000 * 0.15)
      + (400000 * 0.20) + (400000 * 0.25) + (taxable - 2400000) * 0.30.

(** *** Parameters of the script *)

Definition inflation_rate : Q := 0.0522.

(** A dict literal, in insertion order. *)
Definition taxpayer_counts : list (string * Z) :=
  [ ("AY 2021-22"%string, 45000000%Z);
    ("AY 2022-23"%string, 63000000%Z);
    ("AY 2023-24"%string, 67700000%Z);
    ("AY 2024-25"%string, 72800000%Z) ].

Record info : Set := { percentage : Q; rep_income : Q }.

Definition taxpayer_distribution : list (string * info) :=
  [ ("Up to ₹3 lakh"%string, {| percentage := 0.50; rep_income := 200000 |});
    ("₹3–7 lakh"%string, {| percentage := 0.30; rep_income := 500000 |});
    ("₹7–10 lakh"%string, {| percentage := 0.10; rep_income := 850000 |});
    ("₹10–12 lakh"%string, {| percentage := 0.05; rep_income := 1100000 |});
    ("₹12–15 lakh"%string, {| percentage := 0.03; rep_income := 1350000 |});
    ("Above ₹15 lakh"%string, {| percentage := 0.02; rep_income := 2500000 |}) ].

(** [d[key]] on a dict literal. *)
Fixpoint getitem {V : Type} (d : list (string * V)) (key : string)
  : option V :=
  match d with
  | [] => None
  | (k, v) :: rest => if String.eqb k key then Some v else getitem rest key
  end.

Definition total_taxpayers_AY2425 : Z :=
  Eval cbv in
    match getitem taxpayer_counts "AY 2024-25" with
    | Some n => n
    | None => 0%Z
    end.

Definition value_addition_multiplier : Q := 0.50.
Definition current_gdp : Q := 296.58e12.

(** *** The per-slab loop

    The loop appends to four lists.  Its state is the four lists; the
    distribution and the taxpayer total are arguments. *)

Record loop_state : Type := {
  slab_names : list string;
  savings_per_taxpayer : list Q;
  num_taxpayers_slab : list Q;
  aggregate_savings_slab : list Q
}.

Definition loop_init : loop_state :=
  {| slab_names := []; savings_per_taxpayer := [];
     num_taxpayers_slab := []; aggregate_savings_slab := [] |}.

Definition loop_body (total_taxpayers : Z) (st : loop_state)
    (item : string * info) : loop_state :=
  let slab := fst item in
  let rep_income := rep_income (snd item) in
  let percent := percentage (snd item) in
  let saving := old_tax rep_income - new_tax rep_income in
  let count := inject_Z total_taxpayers * percent in
  {| slab_names := slab_names st ++ [slab];
     savings_per_taxpayer := savings_per_taxpayer st ++ [saving];
     num_taxpayers_slab := num_taxpayers_slab st ++ [count];
     aggregate_savings_slab := aggregate_savings_slab st ++ [saving * count] |}.

Definition slab_loop (distribution : list (string * info))
    (total_taxpayers : Z) : loop_state :=
  fold_left (loop_body total_taxpayers) distribution loop_init.

Definition total_aggregate_savings_AY2425
    (distribution : list (string * info)) (total_taxpayers : Z) : Q :=
  Py.sum (aggregate_savings_slab (slab_loop distribution total_taxpayers)).

Definition avg_saving_AY2425
    (distribution : list (string * info)) (total_taxpayers : Z)
  : result Q :=
  Py.div (total_aggregate_savings_AY2425 distribution total_taxpayers)
         (inject_Z total_taxpayers).

(** *** Inflation adjustment and the GDP estimate *)

Definition real_total_savings_AY2425 (total_aggregate_savings rate : Q)
  : result Q :=
  Py.div total_aggregate_savings (1 + rate).

Definition gdp_increase_nominal (real_total_savings multiplier : Q) : Q :=
  real_total_savings * multiplier.

Definition gdp_increase_percentage
    (real_total_savings multiplier gdp : Q) : result Q :=
  q <- Py.div (gdp_increase_nominal real_total_savings multiplier) gdp ;;
  Ok (q * 100).

(** *** The script, top to bottom *)

Record report : Type := {
  r_avg_saving : Q;
  r_total_nominal : Q;
  r_total_real : Q;
  r_gdp_increase : Q;
  r_gdp_increase_pct : Q
}.

Definition run (distribution : list (string * info)) (total_taxpayers : Z)
    (rate multiplier gdp : Q) : result report :=
  let total := total_aggregate_savings_AY2425 distribution total_taxpayers in
  avg <- avg_saving_AY2425 distribution total_taxpayers ;;
  real <- real_total_savings_AY2425 total rate ;;
  pct <- gdp_increase_percentage real multiplier gdp ;;
  Ok {| r_avg_saving := avg; r_total_nominal := total;
        r_total_real := real;
        r_gdp_increase := gdp_increase_nominal real multiplier;
        r_gdp_increase_pct := pct |}.

(** *** Aggregates over the assessment years *)

(** [list(taxpayer_counts.keys())]. *)
Definition years (counts : list (string * Z)) : list string :=
  map fst counts.

(** [[taxpayer_counts[year] for year in years]]; [None] stands for the
    KeyError of a missing key. *)
Fixpoint taxpayer_numbers (counts : list (string * Z)) (ys : list string)
  : option (list Z) :=
  match ys with
  | [] => Some []
  | year :: rest =>
      match getitem counts year with
      | None => None
      | Some n =>
          match taxpayer_numbers counts rest with
          | None => None
          | Some ns => Some (n :: ns)
          end
      end
  end.

(** [[avg_saving_AY2425 * n for n in taxpayer_numbers]]. *)
Definition aggregate_savings_yearly (avg_saving : Q) (numbers : list Z)
  : list Q :=
  map (fun n => avg_saving * inject_Z n) numbers.

(** [[s / (1 + inflation_rate) for s in aggregate_savings_yearly]]: the
    division is evaluated once per element, from the first on. *)
Fixpoint real_aggregate_savings_yearly (yearly : list Q) (rate : Q)
  : result (list Q) :=
  match yearly with
  | [] => Ok []
  | s :: rest =>
      x <- Py.div s (1 + rate) ;;
      xs <- real_aggregate_savings_yearly rest rate ;;
      Ok (x :: xs)
  end.

End Tax3.

(** ** tax2.py, the script below its tax functions

    tax2.py holds the same parameters and the same per-slab loop as tax3.py,
    over its own [old_tax] and [new_tax]; the types of the distribution and
    of the loop state are those of [Tax3]. *)

Module Tax2Script.

Definition loop_body (total_taxpayers : Z) (st : Tax3.loop_state)
    (item : string * Tax3.info) : Tax3.loop_state :=
  let slab := fst item in
  let rep_income := Tax3.rep_income (snd item) in
  let percent := Tax3.percentage (snd item) in
  let saving := Tax2.old_tax rep_income - Tax2.new_tax rep_income in
  let count := inject_Z total_taxpayers * percent in
  {| Tax3.slab_names := Tax3.slab_names st ++ [slab];
     Tax3.savings_per_taxpayer := Tax3.savings_per_taxpayer st ++ [saving];
     Tax3.num_taxpayers_slab := Tax3.num_taxpayers_slab st ++ [count];
     Tax3.aggregate_savings_slab :=
       Tax3.aggregate_savings_slab st ++ [saving * count] |}.

Definition slab_loop (distribution : list (string * Tax3.info))
    (total_taxpayers : Z) : Tax3.loop_state :=
  fold_left (loop_body total_taxpayers) distribution Tax3.loop_init.

Definition total_aggregate_savings_AY2425
    (distribution : list (string * Tax3.info)) (total_taxpayers : Z) : Q :=
  Py.sum (Tax3.aggregate_savings_slab (slab_loop distribution total_taxpayers)).

Definition avg_saving_AY2425
    (distribution : list (string * Tax3.info)) (total_taxpayers : Z)
  : result Q :=
  Py.div (total_aggregate_savings_AY2425 distribution total_taxpayers)
         (inject_Z total_taxpayers).

Definition real_total_savings (total_aggregate_savings rate : Q)
  : result Q :=
  Py.div total_aggregate_savings (1 + rate).

End Tax2Script.

(** ** tax3.py in binary64 arithmetic

    The tax functions and the per-slab loop of tax3.py once more, on IEEE 754
    binary64 numbers with round-to-nearest-even, which is the arithmetic of
    Python's floats.  Incomes and fractions are doubles; an int income below
    2^53 behaves like the double of the same value, since the subtractions
    of the tax functions are then exact.  A decimal literal stands for the
    nearest double, as in Python. *)

Module Tax3Float.

Import PrimFloat.
#[local] Set Warnings "-inexact-float".
Local Open Scope float_scope.

(** The double nearest to a Python int (ties to even), as Python's
    int-to-float conversion gives it for ints below 2^1024. *)
Definition of_int (n : Z) : float :=
  FloatOps.SF2Prim (SpecFloat.binary_normalize FloatOps.prec FloatOps.emax
                      n 0 false).

(** [max(a, b)]: the first argument unless the second is strictly
    greater. *)
Definition py_max (a b : float) : float := if ltb a b then b else a.

(** [sum(xs)]: left-to-right accumulation starting from [0]. *)
Definition py_sum (xs : list float) : float := fold_left add xs 0.

Definition old_tax (income : float) : float :=
  let taxable := py_max (income - 50000) 0 in
  if taxable <=? 250000 then 0
  else if taxable <=? 500000 then (taxable - 250000) * 0.05
  else if taxable <=? 1000000 then
    (250000 * 0.05) + (taxable - 500000) * 0.20
  else
    (250000 * 0.05) + (500000 * 0.20) + (taxable - 1000000) * 0.30.

Definition new_tax (income : float) : float :=
  let taxable := income - 75000 in
  if taxable <=? 1200000 then 0
  else
    if taxable <=? 400000 then 0
    else if taxable <=? 800000 then (taxable - 400000) * 0.05
    else if taxable <=? 1200000 then
      (400000 * 0.05) + (taxable - 800000) * 0.10
    else if taxable <=? 1600000 then
      (400000 * 0.05) + (400000 * 0.10) + (taxable - 1200000) * 0.15
    else if taxable <=? 2000000 then
      (400000 * 0.05) + (400000 * 0.10) + (400000 * 0.15)
      + (taxable - 1600000) * 0.20
    else if taxable <=? 2400000 then
      (400000 * 0.05) + (400000 * 0.10) + (400000 * 0.15)
      + (400000 * 0.20) + (taxable - 2000000) * 0.25
    else
      (400000 * 0.05) + (400000 * 0.10) + (400000 * 0.15)
      + (400000 * 0.20) + (400000 * 0.25) + (taxable - 2400000) * 0.30.

Record info : Set := { percentage : float; rep_income : float }.

Record loop_state : Type := {
  slab_names : list string;
  savings_per_taxpayer : list float;
  num_taxpayers_slab : list float;
  aggregate_savings_slab : list float
}.

Definition loop_init : loop_state :=
  {| slab_names := []; savings_per_taxpayer := [];
     num_taxpayers_slab := []; aggregate_savings_slab := [] |}.

Definition loop_body (total_taxpayers : Z) (st : loop_state)
    (item : string * info) : loop_state :=
  let slab := fst item in
  let rep_income := rep_income (snd item) in
  let percent := percentage (snd item) in
  let saving := old_tax rep_income - new_tax rep_income in
  let count := of_int total_taxpayers * percent in
  {| slab_names := slab_names st ++ [slab];
     savings_per_taxpayer := savings_per_taxpayer st ++ [saving];
     num_taxpayers_slab := num_taxpayers_slab st ++ [count];
     aggregate_savings_slab := aggregate_savings_slab st ++ [saving * count] |}.

Definition slab_loop (distribution : list (string * info))
    (total_taxpayers : Z) : loop_state :=
  fold_left (loop_body total_taxpayers) distribution loop_init.

Definition total_aggregate_savings_AY2425
    (distribution : list (string * info)) (total_taxpayers : Z) : float :=
  py_sum (aggregate_savings_slab (slab_loop distribution total_taxpayers)).

(** A float divided by an int: [ZeroDivisionError] when the int is zero,
    otherwise the quotient by the int's double. *)
Definition avg_saving_AY2425
    (distribution : list (string * info)) (total_taxpayers : Z)
  : result float :=
  if (total_taxpayers =? 0)%Z then Raise ZeroDivisionError
  else Ok (total_aggregate_savings_AY2425 distribution total_taxpayers
           / of_int total_taxpayers).

(** The distribution of the script. *)
Definition taxpayer_distribution : list (string * info) :=
  [ ("Up to ₹3 lakh"%string, {| percentage := 0.50; rep_income := 200000 |});
    ("₹3–7 lakh"%string, {| percentage := 0.30; rep_income := 500000 |});
    ("₹7–10 lakh"%string, {| percentage := 0.10; rep_income := 850000 |});
    ("₹10–12 lakh"%string, {| percentage := 0.05; rep_income := 1100000 |});
    ("₹12–15 lakh"%string, {| percentage := 0.03; rep_income := 1350000 |});
    ("Above ₹15 lakh"%string, {| percentage := 0.02; rep_income := 2500000 |}) ].

End Tax3Float.

(** ** The design document's calculator

    The reference algorithm of the design document, written from its words:
    a regime is a standard deduction, an optional rebate threshold and an
    ordered table of slabs, and the liability is a walk over the table. *)

Module Design.

Record Slab : Set := {
  lower_bound : Q;
  upper_bound : option Q;   (* [None]: unbounded *)
  rate : Q
}.

Record RegimeConfig : Set := {
  standard_deduction : Q;
  rebate_threshold : option Q;
  rebate_amount : option Q;
  slabs : list Slab
}.

(** [min(taxable, upper_bound)], with an unbounded upper bound never
    binding. *)
Definition cap (taxable : Q) (ub : option Q) : Q :=
  match ub with
  | Some u => Qmin taxable u
  | None => taxable
  end.

(** The part of [taxable] falling in slab [s], at the slab's rate. *)
Definition slab_tax (taxable : Q) (s : Slab) : Q :=
  rate s * (cap taxable (upper_bound s) - Qmin taxable (lower_bound s)).

Definition slab_walk (taxable : Q) (table : list Slab) : Q :=
  fold_left (fun acc s => acc + slab_tax taxable s) table 0.

Definition compute_tax (gross_income : Q) (regime : RegimeConfig) : Q :=
  let taxable := Qmax (gross_income - standard_deduction regime) 0 in
  match rebate_threshold regime with
  | Some threshold =>
      if Qle_bool taxable threshold then 0
      else slab_walk taxable (slabs regime)
  | None => slab_walk taxable (slabs regime)
  end.

(** The two configured regimes: the bounds and rates of the branches of
    [old_tax] and [new_tax]. *)
Definition old_slabs : list Slab :=
  [ {| lower_bound := 0;       upper_bound := Some 250000;  rate := 0 |};
    {| lower_bound := 250000;  upper_bound := Some 500000;  rate := 0.05 |};
    {| lower_bound := 500000;  upper_bound := Some 1000000; rate := 0.20 |};
    {| lower_bound := 1000000; upper_bound := None;         rate := 0.30 |} ].

Definition new_slabs : list Slab :=
  [ {| lower_bound := 0;       upper_bound := Some 400000;  rate := 0 |};
    {| lower_bound := 400000;  upper_bound := Some 800000;  rate := 0.05 |};
    {| lower_bound := 800000;  upper_bound := Some 1200000; rate := 0.10 |};
    {| lower_bound := 1200000; upper_bound := Some 1600000; rate := 0.15 |};
    {| lower_bound := 1600000; upper_bound := Some 2000000; rate := 0.20 |};
    {| lower_bound := 2000000; upper_bound := Some 2400000; rate := 0.25 |};
    {| lower_bound := 2400000; upper_bound := None;         rate := 0.30 |} ].

Definition old_regime : RegimeConfig :=
  {| standard_deduction := 50000; rebate_threshold := None;
     rebate_amount := None; slabs := old_slabs |}.

Definition new_regime : RegimeConfig :=
  {| standard_deduction := 75000; rebate_threshold := Some 1200000;
     rebate_amount := Some 60000; slabs := new_slabs |}.

(** The Slab invariant, as a check on a table: the first slab starts at
    [floor], each slab is non-empty and starts where the previous one
    ends, only the last slab is unbounded, and the rates never decrease
    ([prev] is the rate of the preceding slab). *)
Fixpoint table_ok (floor prev : Q) (table : list Slab) : bool :=
  match table with
  | [] => false
  | s :: rest =>
      Qeq_bool (lower_bound s) floor
      && Qle_bool prev (rate s)
      && Qle_bool 0 (rate s) && Qle_bool (rate s) 1
      && match upper_bound s, rest with
         | None, [] => true
         | Some u, _ :: _ =>
             negb (Qle_bool u (lower_bound s)) && table_ok u (rate s) rest
         | _, _ => false
         end
  end.

End Design.

(** ** Notions used in the statements *)

(** The sum of a list of amounts. *)
Fixpoint Qsum (xs : list Q) : Q :=
  match xs with
  | [] => 0
  | x :: rest => x + Qsum rest
  end.

(** Two outcomes are the same: the same exception, or equal amounts. *)
Definition result_eq (r1 r2 : result Q) : Prop :=
  match r1, r2 with
  | Ok a, Ok b => a == b
  | Raise e1, Raise e2 => e1 = e2
  | _, _ => False
  end.

(** The saving and the head count of one segment of a distribution. *)
Definition saving_of (item : string * Tax3.info) : Q :=
  Tax3.old_tax (Tax3.rep_income (snd item))
  - Tax3.new_tax (Tax3.rep_income (snd item)).

Definition count_of (total_taxpayers : Z) (item : string * Tax3.info) : Q :=
  inject_Z total_taxpayers * Tax3.percentage (snd item).

(** The last element of a table, if any. *)
Fixpoint last_slab (table : list Design.Slab) : option Design.Slab :=
  match table with
  | [] => None
  | [s] => Some s
  | _ :: rest => last_slab rest
  end.

(** The Slab invariant of the data model: the table is not empty; every
    slab but the last is bounded, non-empty, ends where the next one
    starts, and its rate is at most the next one's; the last slab is
    unbounded. *)
Definition slab_invariant (table : list Design.Slab) : Prop :=
  table <> []
  /\ (forall (i : nat) (s s' : Design.Slab),
        nth_error table i = Some s ->
        nth_error table (S i) = Some s' ->
        exists u, Design.upper_bound s = Some u
                  /\ Design.lower_bound s < u
                  /\ Design.lower_bound s' == u
                  /\ Design.rate s <= Design.rate s')
  /\ (exists s, last_slab table = Some s /\ Design.upper_bound s = None).

(** A bounded slab does not end before it starts. *)
Definition slab_nonneg (s : Design.Slab) : Prop :=
  forall u, Design.upper_bound s = Some u -> Design.lower_bound s <= u.

(** The slab walk restricted to the slabs whose lower bound is below the
    taxable income. *)
Definition slab_walk_occupied (taxable : Q) (table : list Design.Slab) : Q :=
  Design.slab_walk taxable
    (filter (fun s => negb (Qle_bool taxable (Design.lower_bound s))) table).

(** ** Proof tools *)

Lemma Qle_bool_false (x y : Q) : Qle_bool x y = false -> y < x.
Proof.
  intro H. apply Qnot_le_lt. intro Hle.
  apply Qle_bool_iff in Hle. congruence.
Qed.

(** Case analysis on every comparison of a tax function, discarding the
    combinations that contradict each other. *)
Ltac split_tests :=
  repeat match goal with
  | |- context [Qle_bool ?a ?b] =>
      let E := fresh "E" in
      destruct (Qle_bool a b) eqn:E;
      [ apply Qle_bool_iff in E | apply Qle_bool_false in E ];
      try (exfalso; lra)
  end.

(** Case analysis on every [Qmin]/[Qmax] of the goal and the hypotheses. *)
Ltac split_min a b :=
  let m := fresh "m" in
  let Hm := fresh "Hm" in
  destruct (Q.min_spec a b) as [[? Hm] | [? Hm]];
  set (m := Qmin a b) in *; clearbody m; try (exfalso; lra).

Ltac split_max a b :=
  let m := fresh "m" in
  let Hm := fresh "Hm" in
  destruct (Q.max_spec a b) as [[? Hm] | [? Hm]];
  set (m := Qmax a b) in *; clearbody m; try (exfalso; lra).

Ltac split_minmax :=
  repeat match goal with
  | |- context [Qmax ?a ?b] => split_max a b
  | _ : context [Qmax ?a ?b] |- _ => split_max a b
  | |- context [Qmin ?a ?b] => split_min a b
  | _ : context [Qmin ?a ?b] |- _ => split_min a b
  end.

(** [Py.max] returns one of its arguments, the larger one. *)
Lemma py_max_cases (a b : Q) :
  (b <= a /\ Py.max a b = a) \/ (a < b /\ Py.max a b = b).
Proof.
  unfold Py.max. destruct (Qle_bool b a) eqn:E.
  - left. split; [ now apply Qle_bool_iff | reflexivity ].
  - right. split; [ now apply Qle_bool_false | reflexivity ].
Qed.

Ltac split_pymax :=
  repeat match goal with
  | |- context [Py.max ?a ?b] =>
      let Hm := fresh "Hm" in
      destruct (py_max_cases a b) as [[? Hm] | [? Hm]]; rewrite Hm; clear Hm
  end.

Lemma py_max_Qmax (a b : Q) : Py.max a b == Qmax a b.
Proof.
  split_pymax; split_minmax; lra.
Qed.

Lemma inject_Z_zero (n : Z) : Qeq_bool (inject_Z n) 0 = Z.eqb n 0.
Proof.
  unfold Qeq_bool, inject_Z; simpl. now rewrite Z.mul_1_r.
Qed.

Lemma inject_Z_nonzero (n : Z) : n <> 0%Z -> ~ inject_Z n == 0.
Proof.
  intros Hn H. apply Hn. unfold Qeq, inject_Z in H; simpl in H. lia.
Qed.

(** ** Sums *)

Lemma fold_left_Qplus_acc {A : Type} (f : A -> Q) (l : list A) (acc : Q) :
  fold_left (fun a x => a + f x) l acc == acc + Qsum (map f l).
Proof.
  revert acc. induction l as [| x l IH]; intro acc; simpl.
  - ring.
  - rewrite IH. ring.
Qed.

Lemma py_sum_Qsum (xs : list Q) : Py.sum xs == Qsum xs.
Proof.
  unfold Py.sum.
  rewrite (fold_left_Qplus_acc (fun x => x) xs 0), map_id. ring.
Qed.

Lemma Qsum_Permutation (xs ys : list Q) :
  Permutation xs ys -> Qsum xs == Qsum ys.
Proof.
  induction 1 as [| x l l' _ IH | x y l | l l' l'' _ IH1 _ IH2]; simpl.
  - reflexivity.
  - rewrite IH. reflexivity.
  - ring.
  - now rewrite IH1.
Qed.

Lemma slab_walk_Qsum (taxable : Q) (table : list Design.Slab) :
  Design.slab_walk taxable table
  == Qsum (map (Design.slab_tax taxable) table).
Proof.
  unfold Design.slab_walk. rewrite fold_left_Qplus_acc. ring.
Qed.

(** ** The slab tables *)

Section SlabTables.

Import Design.

Lemma table_ok_head (floor prev : Q) (s : Slab) (rest : list Slab) :
  table_ok floor prev (s :: rest) = true ->
  lower_bound s == floor /\ prev <= rate s.
Proof.
  simpl. intro H.
  repeat (apply andb_prop in H; destruct H as [H ?]).
  split; [ now apply Qeq_bool_eq | now apply Qle_bool_iff ].
Qed.

Lemma table_ok_tail (floor prev : Q) (s s' : Slab) (rest : list Slab) :
  table_ok floor prev (s :: s' :: rest) = true ->
  exists u, upper_bound s = Some u
            /\ lower_bound s < u
            /\ table_ok u (rate s) (s' :: rest) = true.
Proof.
  cbn [table_ok]. intro H.
  apply andb_prop in H; destruct H as [_ H].
  destruct (upper_bound s) as [u |]; [ | discriminate ].
  apply andb_prop in H; destruct H as [Hlt Hrest].
  exists u. split; [ reflexivity | ]. split; [ | exact Hrest ].
  apply Qle_bool_false. now destruct (Qle_bool u (lower_bound s)).
Qed.

Lemma table_ok_last (floor prev : Q) (table : list Slab) :
  table_ok floor prev table = true ->
  exists s, last_slab table = Some s /\ upper_bound s = None.
Proof.
  revert floor prev.
  induction table as [| s rest IH]; intros floor prev H.
  - discriminate.
  - destruct rest as [| s' rest'].
    + exists s. split; [ reflexivity | ].
      simpl in H. apply andb_prop in H; destruct H as [_ H].
      now destruct (upper_bound s).
    + destruct (table_ok_tail _ _ _ _ _ H) as (u & _ & _ & Hrest).
      destruct (IH _ _ Hrest) as (l & Hl & Hu).
      exists l. split; [ exact Hl | exact Hu ].
Qed.

Lemma table_ok_adjacent (table : list Slab) :
  forall (floor prev : Q) (i : nat) (s s' : Slab),
  table_ok floor prev table = true ->
  nth_error table i = Some s ->
  nth_error table (S i) = Some s' ->
  exists u, upper_bound s = Some u
            /\ lower_bound s < u
            /\ lower_bound s' == u
            /\ rate s <= rate s'.
Proof.
  induction table as [| h rest IH]; intros floor prev i s s' Hok Hi Hi'.
  - destruct i; discriminate.
  - destruct rest as [| h' rest'].
    + destruct i; discriminate.
    + destruct (table_ok_tail _ _ _ _ _ Hok) as (u & Hu & Hlt & Hrest).
      destruct i as [| i].
      * simpl in Hi, Hi'. injection Hi as <-. injection Hi' as <-.
        destruct (table_ok_head _ _ _ _ Hrest) as [Hlb Hrate].
        exists u. now repeat split.
      * exact (IH _ _ i s s' Hrest Hi Hi').
Qed.

(** A table that passes the check satisfies the Slab invariant. *)
Lemma table_ok_invariant (floor prev : Q) (table : list Slab) :
  table_ok floor prev table = true -> slab_invariant table.
Proof.
  intro Hok. split; [ | split ].
  - intro E. now rewrite E in Hok.
  - intros i s s'.
    now apply table_ok_adjacent with (floor := floor) (prev := prev).
  - now apply table_ok_last with (floor := floor) (prev := prev).
Qed.

Lemma table_ok_nonneg (table : list Slab) :
  forall floor prev : Q,
  table_ok floor prev table = true -> Forall slab_nonneg table.
Proof.
  induction table as [| s rest IH]; intros floor prev Hok.
  - constructor.
  - destruct rest as [| s' rest'].
    + constructor; [ | constructor ].
      intros u Hu. simpl in Hok.
      apply andb_prop in Hok; destruct Hok as [_ Hok].
      rewrite Hu in Hok. discriminate.
    + destruct (table_ok_tail _ _ _ _ _ Hok) as (u & Hu & Hlt & Hrest).
      constructor; [ | exact (IH _ _ Hrest) ].
      intros u' Hu'. rewrite Hu in Hu'. injection Hu' as <-.
      now apply Qlt_le_weak.
Qed.

(** A slab that starts at or above the taxable income contributes
    nothing. *)
Lemma slab_tax_unoccupied (taxable : Q) (s : Slab) :
  slab_nonneg s -> taxable <= lower_bound s -> slab_tax taxable s == 0.
Proof.
  unfold slab_nonneg, slab_tax, cap. intros Hs Hlow.
  assert (E : match upper_bound s with
              | Some u => Qmin taxable u
              | None => taxable
              end == Qmin taxable (lower_bound s)).
  { destruct (upper_bound s) as [u |].
    - specialize (Hs u eq_refl). split_minmax; lra.
    - split_minmax; lra. }
  rewrite E. ring.
Qed.

(** Restricting the walk to the occupied slabs does not change it. *)
Lemma slab_walk_occupied_eq (taxable : Q) (table : list Slab) :
  Forall slab_nonneg table ->
  slab_walk_occupied taxable table == slab_walk taxable table.
Proof.
  unfold slab_walk_occupied. rewrite !slab_walk_Qsum.
  induction 1 as [| s rest Hs _ IH]; simpl.
  - reflexivity.
  - destruct (Qle_bool taxable (lower_bound s)) eqn:E; simpl.
    + apply Qle_bool_iff in E.
      rewrite (slab_tax_unoccupied taxable s Hs E), IH. ring.
    + now rewrite IH.
Qed.

(** The branches of [old_tax] are the walk over [old_slabs]. *)
Lemma old_tax_slab_walk (income : Q) :
  Tax.old_tax income
  == slab_walk (Qmax (income - 50000) 0) old_slabs.
Proof.
  unfold Tax.old_tax, slab_walk, slab_tax, old_slabs; cbn.
  split_pymax; split_tests; split_minmax; lra.
Qed.

(** Above the rebate threshold the branches of [new_tax] are the walk
    over [new_slabs]; at or below it the result is [0]. *)
Lemma new_tax_slab_walk (income : Q) :
  Tax.new_tax income
  == if Qle_bool (Qmax (income - 75000) 0) 1200000 then 0
     else slab_walk (Qmax (income - 75000) 0) new_slabs.
Proof.
  unfold Tax.new_tax, slab_walk, slab_tax, new_slabs; cbn.
  split_tests; split_minmax; lra.
Qed.

(** [new_tax] is the rebate test followed by its chain of branches. *)
Lemma new_tax_unfold (income : Q) :
  Tax.new_tax income
  = if Qle_bool (income - 75000) 1200000 then 0
    else Tax.new_tax_branches (income - 75000).
Proof.
  reflexivity.
Qed.

(** The whole chain, unreachable branches included, is the walk over
    [new_slabs]. *)
Lemma new_tax_branches_slab_walk (taxable : Q) :
  Tax.new_tax_branches (Qmax taxable 0)
  == slab_walk (Qmax taxable 0) new_slabs.
Proof.
  unfold Tax.new_tax_branches, slab_walk, slab_tax, new_slabs; cbn.
  split_max taxable 0; split_tests; split_minmax; lra.
Qed.

End SlabTables.

(** ** The per-slab loop of tax3.py *)

Section SlabLoop.

Import Tax3.

Variable total_taxpayers : Z.

(** What the loop has appended after running over [distribution] from
    an arbitrary state. *)
Lemma loop_appends (distribution : list (string * info)) (st : loop_state) :
  let st' := fold_left (loop_body total_taxpayers) distribution st in
  slab_names st' = slab_names st ++ map fst distribution
  /\ savings_per_taxpayer st'
     = savings_per_taxpayer st ++ map saving_of distribution
  /\ num_taxpayers_slab st'
     = num_taxpayers_slab st ++ map (count_of total_taxpayers) distribution
  /\ aggregate_savings_slab st'
     = aggregate_savings_slab st
       ++ map (fun item => saving_of item * count_of total_taxpayers item)
              distribution.
Proof.
  revert st. induction distribution as [| item rest IH]; intro st; simpl.
  - now rewrite !app_nil_r.
  - destruct (IH (loop_body total_taxpayers st item)) as (H1 & H2 & H3 & H4).
    rewrite H1, H2, H3, H4. simpl.
    now rewrite <- !app_assoc.
Qed.

Lemma total_aggregate_savings_Qsum (distribution : list (string * info)) :
  total_aggregate_savings_AY2425 distribution total_taxpayers
  == Qsum (map (fun item => saving_of item * count_of total_taxpayers item)
               distribution).
Proof.
  unfold total_aggregate_savings_AY2425, slab_loop.
  destruct (loop_appends distribution loop_init) as (_ & _ & _ & H).
  rewrite H. simpl. apply py_sum_Qsum.
Qed.

End SlabLoop.

(** ** The sample average of tax.py *)

Lemma np_sub_map {A : Type} (f g : A -> Q) (l : list A) :
  Np.sub (map f l) (map g l) = map (fun x => f x - g x) l.
Proof.
  unfold Np.sub. induction l as [| x l IH]; simpl.
  - reflexivity.
  - now rewrite IH.
Qed.

Lemma tax_savings_map (incomes : list Q) :
  Tax.tax_savings incomes
  = map (fun i => Tax.old_tax i - Tax.new_tax i) incomes.
Proof.
  unfold Tax.tax_savings, Tax.old_taxes, Tax.new_taxes. apply np_sub_map.
Qed.

Lemma np_mean_nonempty (a : list Q) :
  a <> [] ->
  Np.mean a = Np.Finite (Py.sum a / inject_Z (Z.of_nat (List.length a))).
Proof.
  destruct a; [ contradiction | reflexivity ].
Qed.

(** ** The tax functions *)

(** C1.  For every gross income, [old_tax] and [new_tax] compute what the
    design document's algorithm computes on the corresponding regime:
    taxable income is the income less the deduction, clamped at zero; a
    taxable income at or below the rebate threshold gives 0; otherwise the
    liability is the sum over the slabs of the rate times the part of the
    taxable income in the slab.  The missing clamp in [new_tax] makes no
    difference, and neither does restricting the sum to the slabs whose
    lower bound is below the taxable income. *)
Theorem tax_functions_follow_design (gross_income : Q) :
  Tax.old_tax gross_income
  == Design.compute_tax gross_income Design.old_regime
  /\ Tax.new_tax gross_income
     == Design.compute_tax gross_income Design.new_regime
  /\ Tax.old_tax gross_income
     == slab_walk_occupied (Qmax (gross_income - 50000) 0) Design.old_slabs
  /\ Tax.new_tax gross_income
     == if Qle_bool (Qmax (gross_income - 75000) 0) 1200000 then 0
        else slab_walk_occupied (Qmax (gross_income - 75000) 0)
               Design.new_slabs.
Proof.
  split; [ | split; [ | split ] ].
  - apply old_tax_slab_walk.
  - apply new_tax_slab_walk.
  - rewrite old_tax_slab_walk. symmetry.
    apply slab_walk_occupied_eq.
    now apply (table_ok_nonneg Design.old_slabs 0 0).
  - rewrite new_tax_slab_walk.
    destruct (Qle_bool (Qmax (gross_income - 75000) 0) 1200000);
      [ reflexivity | ].
    symmetry. apply slab_walk_occupied_eq.
    now apply (table_ok_nonneg Design.new_slabs 0 0).
Qed.

(** C2, as the spec words it, fails for the income one rupee above the
    cliff: [new_tax 1275001] is not 120000.15. *)
Lemma cliff_example_is_not_120000_15 :
  ~ (Tax.new_tax 1275001 == 120000.15).
Proof.
  vm_compute. discriminate.
Qed.

(** C2, amended.  [old_tax 750000] is 52500 (taxable 700000, i.e.
    12500 + 200000 * 0.20); [new_tax 1275000] is 0 (taxable exactly
    1200000); and [new_tax 1275001] (taxable 1200001) is
    20000 + 40000 + 1 * 0.15 = 60000.15, which is also what the slab walk
    of the new regime gives at 1200001. *)
Theorem boundary_examples :
  Tax.old_tax 750000 == 52500
  /\ Tax.old_tax 750000 == 12500 + (700000 - 500000) * 0.20
  /\ Tax.new_tax 1275000 == 0
  /\ Tax.new_tax 1275001 == 60000.15
  /\ Tax.new_tax 1275001 == 20000 + 40000 + 1 * 0.15
  /\ Design.slab_walk 1200001 Design.new_slabs == 60000.15.
Proof.
  split; [ | split; [ | split; [ | split; [ | split ] ] ] ];
    vm_compute; reflexivity.
Qed.

(** C3.  Both tax functions are non-decreasing in the gross income, and at
    the rebate cliff of the new regime the tax is 0 at a gross income of
    1275000 (taxable income equal to the threshold) and strictly positive
    one rupee above. *)
Theorem tax_monotone (income1 income2 : Q) (Hlt : income1 < income2) :
  Tax.old_tax income1 <= Tax.old_tax income2
  /\ Tax.new_tax income1 <= Tax.new_tax income2
  /\ Tax.new_tax 1275000 == 0
  /\ 0 < Tax.new_tax 1275001.
Proof.
  split; [ | split; [ | split ] ].
  - unfold Tax.old_tax. split_pymax; split_tests; lra.
  - unfold Tax.new_tax. split_tests; lra.
  - vm_compute. reflexivity.
  - vm_compute. reflexivity.
Qed.

Lemma tax_monotone_witness :
  1275000 < 1275001
  /\ Tax.old_tax 1275000 <= Tax.old_tax 1275001
  /\ Tax.new_tax 1275000 <= Tax.new_tax 1275001
  /\ Tax.new_tax 1275000 == 0
  /\ 0 < Tax.new_tax 1275001.
Proof.
  split; [ reflexivity | apply (tax_monotone 1275000 1275001); reflexivity ].
Defined.

(** ** Aggregation over a distribution *)

(** In exact arithmetic the nominal total does not depend on the order of
    the segments. *)
Lemma exact_total_is_order_independent
    (distribution distribution' : list (string * Tax3.info))
    (total_taxpayers : Z) :
  Permutation distribution distribution' ->
  Tax3.total_aggregate_savings_AY2425 distribution total_taxpayers
  == Tax3.total_aggregate_savings_AY2425 distribution' total_taxpayers.
Proof.
  intro Horder. rewrite !total_aggregate_savings_Qsum.
  apply Qsum_Permutation. now apply Permutation_map.
Qed.

Section FloatAggregation.

Import PrimFloat.
#[local] Set Warnings "-inexact-float".




(** The binary64 loop on the distribution of tax3.py itself: the nominal
    total is 1846390000000 and the average 25362.5, in the order of the
    script and in the reverse order alike (every product and partial sum is
    an integer below 2^53 there). *)
Example float_script_figures :
  Tax3Float.total_aggregate_savings_AY2425
    Tax3Float.taxpayer_distribution 72800000 = 1846390000000%float
  /\ Tax3Float.total_aggregate_savings_AY2425
       (rev Tax3Float.taxpayer_distribution) 72800000 = 1846390000000%float
  /\ Tax3Float.avg_saving_AY2425 Tax3Float.taxpayer_distribution 72800000
     = Ok 25362.5%float.
Proof.
  split; [ | split ]; vm_compute; reflexivity.
Qed.

End FloatAggregation.

(** The figures tax3.py prints for its own distribution: the weighted
    average saving is 25362.50 per taxpayer. *)
Example tax3_average_saving :
  exists avg,
    Tax3.avg_saving_AY2425 Tax3.taxpayer_distribution
      Tax3.total_taxpayers_AY2425 = Ok avg
    /\ avg == 25362.5.
Proof.
  eexists. split; [ reflexivity | vm_compute; reflexivity ].
Qed.

(** The script run on its own parameters: the nominal total is
    1,846,390,000,000 and no division fails. *)
Example tax3_run :
  exists r,
    Tax3.run Tax3.taxpayer_distribution Tax3.total_taxpayers_AY2425
      Tax3.inflation_rate Tax3.value_addition_multiplier Tax3.current_gdp
    = Ok r
    /\ Tax3.r_total_nominal r == 1846390000000
    /\ Tax3.r_total_real r == 1846390000000 / 1.0522
    /\ Tax3.r_gdp_increase r == Tax3.r_total_real r * 0.5.
Proof.
  eexists. split; [ reflexivity | ].
  split; [ | split ]; vm_compute; reflexivity.
Qed.

(** ** Negative incomes *)

(** C5, as the spec words it, fails: a call with a negative income raises
    nothing. *)
Lemma negative_income_is_not_rejected :
  Py.call Tax.old_tax (-1) <> Raise InvalidIncomeError
  /\ Py.call Tax.new_tax (-1) <> Raise InvalidIncomeError.
Proof.
  split; discriminate.
Qed.

(** C5, amended.  For every negative gross income both tax functions return
    0 and raise nothing: [old_tax] clamps the taxable income at zero and
    [new_tax] sends the negative taxable income to the rebate branch. *)
Theorem negative_income_returns_zero (income : Q) (Hneg : income < 0) :
  Py.call Tax.old_tax income = Ok 0
  /\ Py.call Tax.new_tax income = Ok 0.
Proof.
  unfold Py.call, Tax.old_tax, Tax.new_tax.
  split; f_equal.
  - split_pymax; split_tests; reflexivity.
  - split_tests; reflexivity.
Qed.

Lemma negative_income_returns_zero_witness :
  -1 < 0
  /\ Py.call Tax.old_tax (-1) = Ok 0
  /\ Py.call Tax.new_tax (-1) = Ok 0.
Proof.
  split; [ reflexivity
         | apply (negative_income_returns_zero (-1)); reflexivity ].
Defined.

(** ** Inflation adjustment and the GDP estimate *)

(** C6.  For every nominal total and every inflation rate above -1 the
    division succeeds and the real total is the nominal total divided by
    one plus the rate; at rate 0 the real total is the nominal total. *)
Theorem inflation_adjustment (nominal rate : Q) (Hrate : -1 < rate) :
  (exists real,
      Tax3.real_total_savings_AY2425 nominal rate = Ok real
      /\ real == nominal / (1 + rate)
      /\ real * (1 + rate) == nominal)
  /\ (exists real0,
         Tax3.real_total_savings_AY2425 nominal 0 = Ok real0
         /\ real0 == nominal).
Proof.
  unfold Tax3.real_total_savings_AY2425, Py.div. split.
  - destruct (Qeq_bool (1 + rate) 0) eqn:E.
    + apply Qeq_bool_eq in E. lra.
    + exists (nominal / (1 + rate)).
      split; [ reflexivity | ]. split; [ reflexivity | ].
      field; lra.
  - exists (nominal / (1 + 0)). split; [ reflexivity | ]. field; lra.
Qed.

Lemma inflation_adjustment_witness :
  -1 < Tax3.inflation_rate
  /\ exists real,
       Tax3.real_total_savings_AY2425 105220 Tax3.inflation_rate = Ok real
       /\ real == 105220 / (1 + Tax3.inflation_rate)
       /\ real * (1 + Tax3.inflation_rate) == 105220.
Proof.
  split; [ reflexivity | ].
  apply (inflation_adjustment 105220 Tax3.inflation_rate). reflexivity.
Defined.

(** C7, as the spec words it, fails: a negative multiplier and a negative
    baseline GDP are both accepted, and the projection returns a value. *)
Lemma gdp_projection_accepts_negative_inputs :
  (exists pct, Tax3.gdp_increase_percentage 100 (-0.5) 200 = Ok pct
               /\ pct == -25)
  /\ (exists pct, Tax3.gdp_increase_percentage 100 0.5 (-200) = Ok pct
                  /\ pct == -25)
  /\ Tax3.gdp_increase_percentage 100 (-0.5) 200 <> Raise DomainError
  /\ Tax3.gdp_increase_percentage 100 0.5 (-200) <> Raise DomainError.
Proof.
  split; [ | split; [ | split ] ].
  - eexists. split; [ reflexivity | vm_compute; reflexivity ].
  - eexists. split; [ reflexivity | vm_compute; reflexivity ].
  - discriminate.
  - discriminate.
Qed.

(** C7, amended.  For every real saving and multiplier, of either sign, and
    every baseline GDP other than zero, of either sign, the increase is the
    real saving times the multiplier and the percentage is the increase
    divided by the baseline times 100; with a baseline of zero the division
    raises. *)
Theorem gdp_projection (real_saving multiplier baseline_gdp : Q)
    (Hgdp : ~ baseline_gdp == 0) :
  Tax3.gdp_increase_nominal real_saving multiplier
  == real_saving * multiplier
  /\ (exists pct,
         Tax3.gdp_increase_percentage real_saving multiplier baseline_gdp
         = Ok pct
         /\ pct == real_saving * multiplier / baseline_gdp * 100)
  /\ Tax3.gdp_increase_percentage real_saving multiplier 0
     = Raise ZeroDivisionError.
Proof.
  split; [ reflexivity | ]. split.
  - unfold Tax3.gdp_increase_percentage, Py.div.
    destruct (Qeq_bool baseline_gdp 0) eqn:E.
    + apply Qeq_bool_eq in E. contradiction.
    + simpl. eexists. split; reflexivity.
  - reflexivity.
Qed.

Lemma gdp_projection_witness :
  ~ Tax3.current_gdp == 0
  /\ exists pct,
       Tax3.gdp_increase_percentage 1000000 Tax3.value_addition_multiplier
         Tax3.current_gdp = Ok pct
       /\ pct == 1000000 * Tax3.value_addition_multiplier
                 / Tax3.current_gdp * 100.
Proof.
  split; [ discriminate | ].
  apply (gdp_projection 1000000 Tax3.value_addition_multiplier
           Tax3.current_gdp).
  discriminate.
Defined.

(** ** The sample average *)

(** C8, as the spec words it, fails on the empty sample: nothing is
    raised, the average is numpy's [nan]. *)
Lemma empty_sample_is_not_rejected :
  Tax.avg_saving_sample [] <> Raise EmptyInputError
  /\ Tax.avg_saving_sample [] = Ok Np.NaN.
Proof.
  split; [ discriminate | reflexivity ].
Qed.

(** C8, amended.  For every non-empty sample the average saving is the
    arithmetic mean of old tax minus new tax over the incomes; for the
    empty sample no error is raised and the result is [nan]. *)
Theorem sample_average (incomes : list Q) (Hne : incomes <> []) :
  (exists avg,
      Tax.avg_saving_sample incomes = Ok (Np.Finite avg)
      /\ avg == Qsum (map (fun i => Tax.old_tax i - Tax.new_tax i) incomes)
                / inject_Z (Z.of_nat (List.length incomes))
      /\ avg * inject_Z (Z.of_nat (List.length incomes))
         == Qsum (map (fun i => Tax.old_tax i - Tax.new_tax i) incomes))
  /\ Tax.avg_saving_sample [] = Ok Np.NaN.
Proof.
  split; [ | reflexivity ].
  unfold Tax.avg_saving_sample. rewrite tax_savings_map.
  set (savings := map (fun i => Tax.old_tax i - Tax.new_tax i) incomes).
  assert (Hsav : savings <> []).
  { intro E. apply Hne. now apply map_eq_nil in E. }
  assert (Hlen : List.length savings = List.length incomes)
    by apply length_map.
  assert (Hpos : ~ inject_Z (Z.of_nat (List.length incomes)) == 0).
  { apply inject_Z_nonzero. destruct incomes; [ contradiction | simpl; lia ]. }
  rewrite (np_mean_nonempty savings Hsav), Hlen.
  eexists. split; [ reflexivity | ].
  rewrite py_sum_Qsum. split; [ reflexivity | now field ].
Qed.

Lemma sample_average_witness :
  [300000; 850000; 1350000; 5000000] <> []
  /\ exists avg,
       Tax.avg_saving_sample [300000; 850000; 1350000; 5000000]
       = Ok (Np.Finite avg)
       /\ avg == Qsum (map (fun i => Tax.old_tax i - Tax.new_tax i)
                           [300000; 850000; 1350000; 5000000])
                 / inject_Z (Z.of_nat 4)
       /\ avg * inject_Z (Z.of_nat 4)
          == Qsum (map (fun i => Tax.old_tax i - Tax.new_tax i)
                       [300000; 850000; 1350000; 5000000]).
Proof.
  split; [ discriminate | ].
  apply (sample_average [300000; 850000; 1350000; 5000000]). discriminate.
Defined.

(** ** The slab tables and the three files *)

(** C9.  The two slab tables satisfy the Slab invariant: they are ordered
    and contiguous from 0, their last slab is unbounded, and their rates
    never decrease: 0, 0.05, 0.20, 0.30 for the old regime and
    0, 0.05, 0.10, 0.15, 0.20, 0.25, 0.30 for the new one.  The tables are
    the ones the tax functions encode: [old_tax] is the walk over the old
    table, and the chain of branches of [new_tax], the branches below the
    rebate threshold included, is the walk over the new table. *)
Theorem slab_tables_satisfy_invariant :
  slab_invariant Design.old_slabs
  /\ slab_invariant Design.new_slabs
  /\ map Design.lower_bound Design.old_slabs = [0; 250000; 500000; 1000000]
  /\ map Design.rate Design.old_slabs = [0; 0.05; 0.20; 0.30]
  /\ map Design.lower_bound Design.new_slabs
     = [0; 400000; 800000; 1200000; 1600000; 2000000; 2400000]
  /\ map Design.rate Design.new_slabs
     = [0; 0.05; 0.10; 0.15; 0.20; 0.25; 0.30]
  /\ (forall income,
        Tax.old_tax income
        == Design.slab_walk (Qmax (income - 50000) 0) Design.old_slabs)
  /\ (forall income,
        Tax.new_tax income
        = if Qle_bool (income - 75000) 1200000 then 0
          else Tax.new_tax_branches (income - 75000))
  /\ (forall taxable,
        Tax.new_tax_branches (Qmax taxable 0)
        == Design.slab_walk (Qmax taxable 0) Design.new_slabs).
Proof.
  split; [ | split; [ | split; [ | split; [ | split; [ | split;
    [ | split; [ | split ] ] ] ] ] ] ].
  - now apply (table_ok_invariant 0 0).
  - now apply (table_ok_invariant 0 0).
  - reflexivity.
  - reflexivity.
  - reflexivity.
  - reflexivity.
  - exact old_tax_slab_walk.
  - exact new_tax_unfold.
  - exact new_tax_branches_slab_walk.
Qed.

(** C10.  The three files define the same two functions: for every income
    [old_tax] agrees across tax.py, tax2.py and tax3.py, and so does
    [new_tax]; the 20% branch of tax2.py, written
    [(taxable - 1200000 - 400000) * 0.20], gives what
    [(taxable - 1600000) * 0.20] gives. *)
Theorem three_files_agree (income : Q) :
  Tax.old_tax income == Tax2.old_tax income
  /\ Tax2.old_tax income == Tax3.old_tax income
  /\ Tax.new_tax income == Tax2.new_tax income
  /\ Tax2.new_tax income == Tax3.new_tax income
  /\ (income - 75000 - 1200000 - 400000) * 0.20
     == (income - 75000 - 1600000) * 0.20.
Proof.
  split; [ | split; [ | split; [ | split ] ] ].
  - reflexivity.
  - reflexivity.
  - unfold Tax.new_tax, Tax2.new_tax. split_tests; lra.
  - unfold Tax2.new_tax, Tax3.new_tax. split_tests; lra.
  - ring.
Qed.

(** * Further properties of the scripts *)

(** ** Shape of the two tax functions *)

Lemma Qeq_bool_pos (x : Q) : 0 < x -> Qeq_bool x 0 = false.
Proof.
  intro H. destruct (Qeq_bool x 0) eqn:E; [ | reflexivity ].
  apply Qeq_bool_eq in E. lra.
Qed.

Lemma old_tax_nonneg (income : Q) : 0 <= Tax.old_tax income.
Proof.
  unfold Tax.old_tax. split_pymax; split_tests; lra.
Qed.

Lemma new_tax_nonneg (income : Q) : 0 <= Tax.new_tax income.
Proof.
  unfold Tax.new_tax. split_tests; lra.
Qed.

Lemma saving_range (income : Q) :
  0 <= Tax.old_tax income - Tax.new_tax income <= 240000.
Proof.
  unfold Tax.old_tax, Tax.new_tax. split_pymax; split_tests; lra.
Qed.

(** X1.  The exemption limits: [old_tax] is zero exactly for gross incomes
    up to 300000 and [new_tax] exactly for gross incomes up to 1275000. *)
Theorem exemption_limits (income : Q) :
  Qeq_bool (Tax.old_tax income) 0 = Qle_bool income 300000
  /\ Qeq_bool (Tax.new_tax income) 0 = Qle_bool income 1275000.
Proof.
  split.
  - destruct (Qle_bool income 300000) eqn:E.
    + apply Qle_bool_iff in E. apply Qeq_eq_bool.
      unfold Tax.old_tax. split_pymax; split_tests; lra.
    + apply Qle_bool_false in E. apply Qeq_bool_pos.
      unfold Tax.old_tax. split_pymax; split_tests; lra.
  - destruct (Qle_bool income 1275000) eqn:E.
    + apply Qle_bool_iff in E. apply Qeq_eq_bool.
      unfold Tax.new_tax. split_tests; lra.
    + apply Qle_bool_false in E. apply Qeq_bool_pos.
      unfold Tax.new_tax. split_tests; lra.
Qed.

(** X2.  For a non-negative gross income neither tax is negative and
    neither exceeds 30% of the income. *)
Theorem tax_within_thirty_percent (income : Q) (Hincome : 0 <= income) :
  0 <= Tax.old_tax income <= 0.30 * income
  /\ 0 <= Tax.new_tax income <= 0.30 * income.
Proof.
  split; split.
  - apply old_tax_nonneg.
  - unfold Tax.old_tax. split_pymax; split_tests; lra.
  - apply new_tax_nonneg.
  - unfold Tax.new_tax. split_tests; lra.
Qed.

Lemma tax_within_thirty_percent_witness :
  0 <= 2500000
  /\ 0 <= Tax.old_tax 2500000 <= 0.30 * 2500000
  /\ 0 <= Tax.new_tax 2500000 <= 0.30 * 2500000.
Proof.
  split; [ discriminate | ].
  apply (tax_within_thirty_percent 2500000). discriminate.
Defined.

(** X4.  The rebate limit is a cliff of at least 60000: for every gross
    income above 1275000, [new_tax] is at least the 60000 that the 5% and
    10% slabs add up to. *)
Theorem new_tax_above_rebate_limit (income : Q)
    (Habove : 1275000 < income) :
  60000 <= Tax.new_tax income.
Proof.
  unfold Tax.new_tax. split_tests; lra.
Qed.

Lemma new_tax_above_rebate_limit_witness :
  1275000 < 1275001 /\ 60000 <= Tax.new_tax 1275001.
Proof.
  split; [ reflexivity | ].
  apply (new_tax_above_rebate_limit 1275001). reflexivity.
Defined.

(** X5.  No marginal relief at the rebate limit: for every gross income
    above 1275000 and up to 1345000, the income left after [new_tax] is
    lower than the income left at exactly 1275000. *)
Theorem rebate_cliff_lowers_net_income (income : Q)
    (Habove : 1275000 < income) (Hnear : income <= 1345000) :
  income - Tax.new_tax income < 1275000 - Tax.new_tax 1275000.
Proof.
  assert (H0 : Tax.new_tax 1275000 == 0) by (vm_compute; reflexivity).
  rewrite H0. unfold Tax.new_tax. split_tests; lra.
Qed.

Lemma rebate_cliff_lowers_net_income_witness :
  1275000 < 1300000 /\ 1300000 <= 1345000
  /\ 1300000 - Tax.new_tax 1300000 < 1275000 - Tax.new_tax 1275000.
Proof.
  split; [ reflexivity | ]. split; [ discriminate | ].
  apply (rebate_cliff_lowers_net_income 1300000);
    [ reflexivity | discriminate ].
Defined.

(** X6.  On gross incomes up to 5000000, the top of the simulated range,
    the new regime never costs more than the old one, and the saving
    [old_tax - new_tax] does not exceed 240000 by as much as a paisa. *)
Theorem saving_range_up_to_50_lakh (income : Q)
    (Hrange : income <= 5000000) :
  Tax.new_tax income <= Tax.old_tax income
  /\ Tax.old_tax income - Tax.new_tax income <= 240000.01.
Proof.
  pose proof (saving_range income) as [H1 H2].
  split; lra.
Qed.

Lemma saving_range_up_to_50_lakh_witness :
  2475001 <= 5000000
  /\ Tax.new_tax 2475001 <= Tax.old_tax 2475001
  /\ Tax.old_tax 2475001 - Tax.new_tax 2475001 <= 240000.01.
Proof.
  split; [ discriminate | ].
  apply (saving_range_up_to_50_lakh 2475001). discriminate.
Defined.

(** X7.  From a gross income of 2475000, where both regimes tax at 30%, up
    to 5000000, the saving is 240000 to within a paisa. *)
Theorem saving_near_240000_at_the_top (income : Q)
    (Htop : 2475000 <= income) (Hrange : income <= 5000000) :
  239999.99 <= Tax.old_tax income - Tax.new_tax income <= 240000.01.
Proof.
  unfold Tax.old_tax, Tax.new_tax. split; split_pymax; split_tests; lra.
Qed.

Lemma saving_near_240000_at_the_top_witness :
  2475000 <= 2475001 /\ 2475001 <= 5000000
  /\ 239999.99 <= Tax.old_tax 2475001 - Tax.new_tax 2475001 <= 240000.01.
Proof.
  split; [ discriminate | ]. split; [ discriminate | ].
  apply (saving_near_240000_at_the_top 2475001); discriminate.
Defined.

(** ** The sample of tax.py *)

Lemma inject_Z_succ (n : nat) :
  inject_Z (Z.of_nat (S n)) == inject_Z (Z.of_nat n) + 1.
Proof.
  rewrite Nat2Z.inj_succ. unfold Z.succ. rewrite inject_Z_plus. reflexivity.
Qed.

Lemma inject_Z_length_pos {A : Type} (l : list A) :
  l <> [] -> 0 < inject_Z (Z.of_nat (List.length l)).
Proof.
  intro Hne. destruct l as [| x l]; [ contradiction | ].
  unfold Qlt, inject_Z; simpl. lia.
Qed.

(** A sum of amounts between [lo] and [hi] lies between the number of
    amounts times [lo] and the number of amounts times [hi]. *)
Lemma Qsum_between (lo hi : Q) (xs : list Q) :
  Forall (fun x => lo <= x <= hi) xs ->
  inject_Z (Z.of_nat (List.length xs)) * lo <= Qsum xs
  /\ Qsum xs <= inject_Z (Z.of_nat (List.length xs)) * hi.
Proof.
  induction 1 as [| x xs [Hlo Hhi] _ [IHlo IHhi]].
  - cbn [List.length Qsum]. change (inject_Z (Z.of_nat 0)) with 0.
    split; lra.
  - cbn [List.length Qsum]. rewrite inject_Z_succ.
    set (n := inject_Z (Z.of_nat (List.length xs))) in *.
    split; nra.
Qed.

(** The mean of a non-empty list of amounts between [lo] and [hi] lies
    between [lo] and [hi]. *)
Lemma mean_between (lo hi : Q) (xs : list Q) :
  xs <> [] ->
  Forall (fun x => lo <= x <= hi) xs ->
  lo <= Qsum xs / inject_Z (Z.of_nat (List.length xs)) <= hi.
Proof.
  intros Hne Hall.
  pose proof (inject_Z_length_pos xs Hne) as Hpos.
  destruct (Qsum_between lo hi xs Hall) as [Hlo Hhi].
  split.
  - apply Qle_shift_div_l; [ exact Hpos | ]. lra.
  - apply Qle_shift_div_r; [ exact Hpos | ]. lra.
Qed.

Lemma tax_savings_range (incomes : list Q) :
  Forall (fun s => 0 <= s <= 240000) (Tax.tax_savings incomes).
Proof.
  rewrite tax_savings_map. apply Forall_map, Forall_forall.
  intros i _. apply saving_range.
Qed.

(** X8.  [np.clip] with a lower bound not above the upper bound keeps the
    length of the array, puts every entry between the bounds, and clamps
    the same way whichever bound is applied first. *)
Theorem clip_within_bounds (a : list Q) (a_min a_max : Q)
    (Hbounds : a_min <= a_max) :
  List.length (Np.clip a a_min a_max) = List.length a
  /\ Forall (fun y => a_min <= y <= a_max) (Np.clip a a_min a_max)
  /\ Forall2 (fun x y => y == Qmax (Qmin x a_max) a_min)
       a (Np.clip a a_min a_max).
Proof.
  unfold Np.clip. split; [ apply length_map | ]. split.
  - apply Forall_map, Forall_forall. intros x _.
    split; split_minmax; lra.
  - induction a as [| x a IH]; simpl; constructor; [ | exact IH ].
    split_minmax; lra.
Qed.

Lemma clip_within_bounds_witness :
  300000 <= 5000000
  /\ List.length (Np.clip [100000; 800000; 9000000] 300000 5000000)
     = List.length [100000; 800000; 9000000]
  /\ Forall (fun y => 300000 <= y <= 5000000)
       (Np.clip [100000; 800000; 9000000] 300000 5000000)
  /\ Forall2 (fun x y => y == Qmax (Qmin x 5000000) 300000)
       [100000; 800000; 9000000]
       (Np.clip [100000; 800000; 9000000] 300000 5000000).
Proof.
  split; [ discriminate | ].
  apply (clip_within_bounds [100000; 800000; 9000000] 300000 5000000).
  discriminate.
Defined.

(** X9.  Whatever the random draw, on the clipped sample every old-regime
    liability lies between 0 and 1297500, every new-regime liability
    between 0 and 1057500, and there is one saving per drawn income. *)
Theorem clipped_sample_liabilities (lognormal : list Q) :
  Forall (fun t => 0 <= t <= 1297500)
    (Tax.old_taxes (Tax.incomes_sample lognormal))
  /\ Forall (fun t => 0 <= t <= 1057500)
       (Tax.new_taxes (Tax.incomes_sample lognormal))
  /\ List.length (Tax.tax_savings (Tax.incomes_sample lognormal))
     = List.length lognormal.
Proof.
  unfold Tax.old_taxes, Tax.new_taxes, Tax.incomes_sample, Np.clip.
  split; [ | split ].
  - apply Forall_map, Forall_map, Forall_forall. intros x _.
    unfold Tax.old_tax.
    split; split_minmax; split_pymax; split_tests; lra.
  - apply Forall_map, Forall_map, Forall_forall. intros x _.
    unfold Tax.new_tax.
    split; split_minmax; split_tests; lra.
  - rewrite tax_savings_map. now rewrite !length_map.
Qed.

(** X10.  On a non-empty draw, clipped as the script clips it, the average
    saving lies between 0 and 240000 (to within a paisa) and the
    extrapolated total is that average times the 80,000,000 taxpayers, hence
    between 0 and 19,200,000,800,000; on the empty sample the total is
    [nan], like the average, and nothing is raised. *)
Theorem sample_average_bounds (lognormal : list Q) (Hne : lognormal <> []) :
  (exists avg total,
      Tax.avg_saving_sample (Tax.incomes_sample lognormal)
      = Ok (Np.Finite avg)
      /\ Tax.total_savings (Tax.incomes_sample lognormal)
         = Ok (Np.Finite total)
      /\ 0 <= avg <= 240000.01
      /\ total == avg * 80000000
      /\ 0 <= total <= 19200000800000)
  /\ Tax.total_savings (Tax.incomes_sample []) = Ok Np.NaN.
Proof.
  split; [ | reflexivity ].
  set (incomes := Tax.incomes_sample lognormal).
  unfold Tax.total_savings, Tax.avg_saving_sample.
  assert (Hsav : Tax.tax_savings incomes <> []).
  { rewrite tax_savings_map. unfold incomes, Tax.incomes_sample, Np.clip.
    intro E. apply Hne. now apply map_eq_nil, map_eq_nil in E. }
  rewrite (np_mean_nonempty _ Hsav). simpl.
  pose proof (mean_between 0 240000 _ Hsav (tax_savings_range incomes))
    as [Hlo Hhi].
  rewrite <- py_sum_Qsum in Hlo, Hhi.
  set (avg := Py.sum (Tax.tax_savings incomes)
              / inject_Z (Z.of_nat (List.length (Tax.tax_savings incomes))))
    in *.
  exists avg, (avg * inject_Z Tax.total_taxpayers).
  split; [ reflexivity | ]. split; [ reflexivity | ].
  assert (Hn : inject_Z Tax.total_taxpayers == 80000000)
    by (vm_compute; reflexivity).
  split; [ split; lra | ].
  split; [ now rewrite Hn | ].
  rewrite Hn. split; lra.
Qed.

Lemma sample_average_bounds_witness :
  [100000; 2475001; 9000000] <> []
  /\ exists avg total,
       Tax.avg_saving_sample (Tax.incomes_sample [100000; 2475001; 9000000])
       = Ok (Np.Finite avg)
       /\ Tax.total_savings (Tax.incomes_sample [100000; 2475001; 9000000])
          = Ok (Np.Finite total)
       /\ 0 <= avg <= 240000.01
       /\ total == avg * 80000000
       /\ 0 <= total <= 19200000800000.
Proof.
  split; [ discriminate | ].
  apply (sample_average_bounds [100000; 2475001; 9000000]).
  discriminate.
Defined.

(** ** The per-slab lists of tax3.py *)



Lemma Qsum_map_ext {A : Type} (f g : A -> Q) (l : list A) :
  (forall x, f x == g x) -> Qsum (map f l) == Qsum (map g l).
Proof.
  intro Hfg. induction l as [| x l IH]; simpl.
  - reflexivity.
  - now rewrite Hfg, IH.
Qed.

Lemma combine_map_mult {A : Type} (f g : A -> Q) (l : list A) :
  map (fun p => fst p * snd p) (combine (map f l) (map g l))
  = map (fun x => f x * g x) l.
Proof.
  induction l as [| x l IH]; simpl.
  - reflexivity.
  - now rewrite IH.
Qed.

(** X13.  The four lists the loop fills stay aligned: the names are the
    keys of the distribution in order, each list has one entry per segment,
    and each aggregate is the product of the saving and the count recorded
    at the same position. *)
Theorem loop_lists_aligned
    (distribution : list (string * Tax3.info)) (total_taxpayers : Z) :
  let st := Tax3.slab_loop distribution total_taxpayers in
  Tax3.slab_names st = map fst distribution
  /\ List.length (Tax3.savings_per_taxpayer st) = List.length distribution
  /\ List.length (Tax3.num_taxpayers_slab st) = List.length distribution
  /\ List.length (Tax3.aggregate_savings_slab st) = List.length distribution
  /\ Tax3.aggregate_savings_slab st
     = map (fun p => fst p * snd p)
           (combine (Tax3.savings_per_taxpayer st)
                    (Tax3.num_taxpayers_slab st)).
Proof.
  intro st.
  destruct (loop_appends total_taxpayers distribution Tax3.loop_init)
    as (Hn & Hs & Hc & Ha).
  fold (Tax3.slab_loop distribution total_taxpayers) in Hn, Hs, Hc, Ha.
  fold st in Hn, Hs, Hc, Ha. simpl in Hn, Hs, Hc, Ha.
  rewrite Hn, Hs, Hc, Ha, !length_map, combine_map_mult.
  repeat split.
Qed.

(** ** The script of tax3.py as a whole *)

Lemma py_div_outcome (a b : Q) :
  match Py.div a b with
  | Ok q => ~ b == 0 /\ q == a / b /\ q * b == a
  | Raise e => e = ZeroDivisionError /\ b == 0
  end.
Proof.
  unfold Py.div. destruct (Qeq_bool b 0) eqn:E.
  - split; [ reflexivity | now apply Qeq_bool_eq ].
  - apply Qeq_bool_neq in E.
    split; [ exact E | ]. split; [ reflexivity | now field ].
Qed.

(** X14.  The script fails only by a division by zero: it runs to its end
    exactly when the taxpayer total, one plus the inflation rate and the
    GDP are all non-zero, and then it reports the nominal total of the
    loop, the average as that total divided by the number of taxpayers, the
    real total as the nominal total divided by one plus the rate, the GDP
    increase as the real total times the multiplier, and the percentage as
    the increase divided by the GDP, times 100. *)
Theorem run_outcome
    (distribution : list (string * Tax3.info)) (total_taxpayers : Z)
    (rate multiplier gdp : Q) :
  match Tax3.run distribution total_taxpayers rate multiplier gdp with
  | Ok r =>
      total_taxpayers <> 0%Z /\ ~ 1 + rate == 0 /\ ~ gdp == 0
      /\ Tax3.r_total_nominal r
         = Tax3.total_aggregate_savings_AY2425 distribution total_taxpayers
      /\ Tax3.r_avg_saving r
         == Tax3.r_total_nominal r / inject_Z total_taxpayers
      /\ Tax3.r_total_real r == Tax3.r_total_nominal r / (1 + rate)
      /\ Tax3.r_gdp_increase r == Tax3.r_total_real r * multiplier
      /\ Tax3.r_gdp_increase_pct r == Tax3.r_gdp_increase r / gdp * 100
  | Raise e =>
      e = ZeroDivisionError
      /\ (total_taxpayers = 0%Z \/ 1 + rate == 0 \/ gdp == 0)
  end.
Proof.
  unfold Tax3.run, Tax3.avg_saving_AY2425, Tax3.real_total_savings_AY2425,
    Tax3.gdp_increase_percentage, Tax3.gdp_increase_nominal.
  set (total := Tax3.total_aggregate_savings_AY2425 distribution
                  total_taxpayers).
  pose proof (py_div_outcome total (inject_Z total_taxpayers)) as Havg.
  destruct (Py.div total (inject_Z total_taxpayers)) as [avg | e]; simpl.
  2:{ destruct Havg as [-> Hz]. split; [ reflexivity | ]. left.
      unfold Qeq, inject_Z in Hz; simpl in Hz. lia. }
  destruct Havg as (Hnz & Havg & _).
  pose proof (py_div_outcome total (1 + rate)) as Hreal.
  destruct (Py.div total (1 + rate)) as [real | e]; simpl.
  2:{ destruct Hreal as [-> Hz]. split; [ reflexivity | ]. right. now left. }
  destruct Hreal as (Hrate & Hreal & _).
  pose proof (py_div_outcome (real * multiplier) gdp) as Hpct.
  destruct (Py.div (real * multiplier) gdp) as [q | e]; simpl.
  2:{ destruct Hpct as [-> Hz]. split; [ reflexivity | ]. right. now right. }
  destruct Hpct as (Hgdp & Hpct & _).
  split; [ intro Hz; apply Hnz; now rewrite Hz | ].
  split; [ exact Hrate | ]. split; [ exact Hgdp | ].
  split; [ reflexivity | ]. split; [ exact Havg | ].
  split; [ exact Hreal | ]. split; [ reflexivity | ].
  now rewrite Hpct.
Qed.

(** ** The yearly aggregates *)

Lemma getitem_In {V : Type} (d : list (string * V)) (k : string) (v : V) :
  NoDup (map fst d) -> In (k, v) d -> Tax3.getitem d k = Some v.
Proof.
  induction d as [| [k0 v0] rest IH]; intros Hnd Hin; [ contradiction | ].
  simpl in Hnd. inversion Hnd as [| ? ? Hnotin Hnd']; subst.
  simpl. destruct (String.eqb_spec k0 k) as [-> | Hneq].
  - destruct Hin as [E | Hin]; [ now injection E as -> | ].
    exfalso. apply Hnotin. now apply (in_map fst) in Hin.
  - destruct Hin as [E | Hin]; [ injection E as -> _; contradiction | ].
    now apply IH.
Qed.

Lemma getitem_missing {V : Type} (d : list (string * V)) (k : string) :
  ~ In k (map fst d) -> Tax3.getitem d k = None.
Proof.
  induction d as [| [k0 v0] rest IH]; intro Hnotin; [ reflexivity | ].
  simpl in *. destruct (String.eqb_spec k0 k) as [-> | Hneq].
  - exfalso. apply Hnotin. now left.
  - apply IH. intro Hin. apply Hnotin. now right.
Qed.

Lemma taxpayer_numbers_incl (counts part : list (string * Z)) :
  NoDup (map fst counts) ->
  incl part counts ->
  Tax3.taxpayer_numbers counts (map fst part) = Some (map snd part).
Proof.
  intros Hnd. induction part as [| [k v] rest IH]; intro Hincl.
  - reflexivity.
  - simpl. rewrite (getitem_In counts k v Hnd) by (apply Hincl; now left).
    rewrite IH; [ reflexivity | ].
    intros kv Hin. apply Hincl. now right.
Qed.

Lemma taxpayer_numbers_missing (counts : list (string * Z))
    (missing : string) (ys : list string) :
  Tax3.getitem counts missing = None ->
  In missing ys ->
  Tax3.taxpayer_numbers counts ys = None.
Proof.
  intro Hnone. induction ys as [| y ys IH]; intro Hin; [ contradiction | ].
  cbn [Tax3.taxpayer_numbers].
  destruct Hin as [-> | Hin].
  - now rewrite Hnone.
  - destruct (Tax3.getitem counts y); [ | reflexivity ].
    now rewrite (IH Hin).
Qed.

(** X15.  Looking every year of [taxpayer_counts] up again gives the counts
    in the order of the dict, provided the keys are distinct (as the keys of
    a dict are); a year that is not a key has no count, and a list of years
    that contains such a year anywhere cannot be looked up. *)
Theorem taxpayer_numbers_in_order
    (counts : list (string * Z)) (missing : string) (ys : list string)
    (Hkeys : NoDup (map fst counts))
    (Hmissing : ~ In missing (map fst counts))
    (Hin : In missing ys) :
  Tax3.taxpayer_numbers counts (Tax3.years counts) = Some (map snd counts)
  /\ Tax3.getitem counts missing = None
  /\ Tax3.taxpayer_numbers counts ys = None.
Proof.
  pose proof (getitem_missing counts missing Hmissing) as Hnone.
  split; [ | split ].
  - apply taxpayer_numbers_incl; [ exact Hkeys | apply incl_refl ].
  - exact Hnone.
  - now apply taxpayer_numbers_missing with (missing := missing).
Qed.

Lemma taxpayer_numbers_in_order_witness :
  NoDup (map fst Tax3.taxpayer_counts)
  /\ ~ In "AY 2025-26"%string (map fst Tax3.taxpayer_counts)
  /\ In "AY 2025-26"%string
       ["AY 2021-22"; "AY 2025-26"; "AY 2024-25"]%string
  /\ Tax3.taxpayer_numbers Tax3.taxpayer_counts
       (Tax3.years Tax3.taxpayer_counts)
     = Some [45000000; 63000000; 67700000; 72800000]%Z
  /\ Tax3.getitem Tax3.taxpayer_counts "AY 2025-26" = None
  /\ Tax3.taxpayer_numbers Tax3.taxpayer_counts
       ["AY 2021-22"; "AY 2025-26"; "AY 2024-25"]%string = None.
Proof.
  assert (Hkeys : NoDup (map fst Tax3.taxpayer_counts)).
  { simpl. repeat constructor; simpl; intuition discriminate. }
  assert (Hmissing : ~ In "AY 2025-26"%string (map fst Tax3.taxpayer_counts)).
  { simpl. intuition discriminate. }
  assert (Hin : In "AY 2025-26"%string
                  ["AY 2021-22"; "AY 2025-26"; "AY 2024-25"]%string).
  { simpl. right. now left. }
  split; [ exact Hkeys | ]. split; [ exact Hmissing | ].
  split; [ exact Hin | ].
  apply (taxpayer_numbers_in_order Tax3.taxpayer_counts "AY 2025-26"
           ["AY 2021-22"; "AY 2025-26"; "AY 2024-25"]%string
           Hkeys Hmissing Hin).
Defined.

(** X16.  With an inflation rate other than -1 the real yearly aggregates
    are all computed: there is one per year, and each is the average saving
    times that year's taxpayer count, divided by one plus the rate.  With a
    rate of -1 the first division raises, unless there is no year at all,
    in which case nothing is divided and the result is the empty list. *)
Theorem real_yearly_aggregates (avg_saving : Q) (numbers : list Z) (rate : Q)
    (Hrate : ~ 1 + rate == 0) :
  (exists reals,
      Tax3.real_aggregate_savings_yearly
        (Tax3.aggregate_savings_yearly avg_saving numbers) rate = Ok reals
      /\ List.length reals = List.length numbers
      /\ Forall2 (fun real n => real == avg_saving * inject_Z n / (1 + rate))
           reals numbers)
  /\ Tax3.real_aggregate_savings_yearly [] (-1) = Ok []
  /\ (forall s rest,
        Tax3.real_aggregate_savings_yearly (s :: rest) (-1)
        = Raise ZeroDivisionError).
Proof.
  split; [ | split; [ reflexivity | reflexivity ] ].
  unfold Tax3.aggregate_savings_yearly.
  induction numbers as [| n numbers (reals & Hreals & Hlen & Hall)].
  - exists []. repeat split. constructor.
  - cbn [map Tax3.real_aggregate_savings_yearly].
    pose proof (py_div_outcome (avg_saving * inject_Z n) (1 + rate)) as Hdiv.
    destruct (Py.div (avg_saving * inject_Z n) (1 + rate)) as [x | e].
    + destruct Hdiv as (_ & Hx & _).
      cbn [bind]. rewrite Hreals. cbn [bind].
      exists (x :: reals). split; [ reflexivity | ].
      split; [ simpl; now rewrite Hlen | ].
      constructor; assumption.
    + destruct Hdiv as [_ Hz]. contradiction.
Qed.

Lemma real_yearly_aggregates_witness :
  ~ 1 + Tax3.inflation_rate == 0
  /\ exists reals,
       Tax3.real_aggregate_savings_yearly
         (Tax3.aggregate_savings_yearly 25362.5
            [45000000; 63000000; 67700000; 72800000]%Z)
         Tax3.inflation_rate = Ok reals
       /\ List.length reals
          = List.length [45000000; 63000000; 67700000; 72800000]%Z
       /\ Forall2 (fun real n =>
                     real == 25362.5 * inject_Z n
                             / (1 + Tax3.inflation_rate))
            reals [45000000; 63000000; 67700000; 72800000]%Z.
Proof.
  split; [ discriminate | ].
  apply (real_yearly_aggregates 25362.5
           [45000000; 63000000; 67700000; 72800000]%Z Tax3.inflation_rate).
  discriminate.
Defined.

(** ** tax2.py against tax3.py *)

Lemma tax2_saving (income : Q) :
  Tax2.old_tax income - Tax2.new_tax income
  == Tax3.old_tax income - Tax3.new_tax income.
Proof.
  unfold Tax2.old_tax, Tax2.new_tax, Tax3.old_tax, Tax3.new_tax.
  split_pymax; split_tests; lra.
Qed.

Lemma tax2_loop_appends (total_taxpayers : Z)
    (distribution : list (string * Tax3.info)) (st : Tax3.loop_state) :
  let st' :=
    fold_left (Tax2Script.loop_body total_taxpayers) distribution st in
  Tax3.savings_per_taxpayer st'
  = Tax3.savings_per_taxpayer st
    ++ map (fun item => Tax2.old_tax (Tax3.rep_income (snd item))
                        - Tax2.new_tax (Tax3.rep_income (snd item)))
           distribution
  /\ Tax3.aggregate_savings_slab st'
     = Tax3.aggregate_savings_slab st
       ++ map (fun item =>
                 (Tax2.old_tax (Tax3.rep_income (snd item))
                  - Tax2.new_tax (Tax3.rep_income (snd item)))
                 * count_of total_taxpayers item)
              distribution.
Proof.
  revert st. induction distribution as [| item rest IH]; intro st; simpl.
  - now rewrite !app_nil_r.
  - destruct (IH (Tax2Script.loop_body total_taxpayers st item)) as [H1 H2].
    rewrite H1, H2. simpl. now rewrite <- !app_assoc.
Qed.

Lemma Forall2_map_Qeq {A : Type} (f g : A -> Q) (l : list A) :
  (forall x, f x == g x) -> Forall2 Qeq (map f l) (map g l).
Proof.
  intro Hfg. induction l as [| x l IH]; simpl; constructor; auto.
Qed.

Lemma py_div_result_eq (a a' b : Q) :
  a == a' -> result_eq (Py.div a b) (Py.div a' b).
Proof.
  intro Ha. unfold Py.div. destruct (Qeq_bool b 0); simpl.
  - reflexivity.
  - now rewrite Ha.
Qed.

(** X18.  tax2.py and tax3.py report the same figures: for every
    distribution, taxpayer total and inflation rate, the per-segment savings
    agree entry by entry, and so do the nominal total, the average and the
    inflation-adjusted total (including when a division raises). *)
Theorem tax2_script_agrees_with_tax3
    (distribution : list (string * Tax3.info)) (total_taxpayers : Z)
    (rate : Q) :
  Forall2 Qeq
    (Tax3.savings_per_taxpayer
       (Tax2Script.slab_loop distribution total_taxpayers))
    (Tax3.savings_per_taxpayer
       (Tax3.slab_loop distribution total_taxpayers))
  /\ Tax2Script.total_aggregate_savings_AY2425 distribution total_taxpayers
     == Tax3.total_aggregate_savings_AY2425 distribution total_taxpayers
  /\ result_eq
       (Tax2Script.avg_saving_AY2425 distribution total_taxpayers)
       (Tax3.avg_saving_AY2425 distribution total_taxpayers)
  /\ result_eq
       (Tax2Script.real_total_savings
          (Tax2Script.total_aggregate_savings_AY2425
             distribution total_taxpayers) rate)
       (Tax3.real_total_savings_AY2425
          (Tax3.total_aggregate_savings_AY2425
             distribution total_taxpayers) rate).
Proof.
  assert (Htotal :
    Tax2Script.total_aggregate_savings_AY2425 distribution total_taxpayers
    == Tax3.total_aggregate_savings_AY2425 distribution total_taxpayers).
  { rewrite total_aggregate_savings_Qsum.
    unfold Tax2Script.total_aggregate_savings_AY2425, Tax2Script.slab_loop.
    destruct (tax2_loop_appends total_taxpayers distribution Tax3.loop_init)
      as [_ H].
    rewrite H. simpl. rewrite py_sum_Qsum.
    apply Qsum_map_ext. intro item. unfold saving_of.
    now rewrite tax2_saving. }
  split; [ | split; [ exact Htotal | split ] ].
  - unfold Tax2Script.slab_loop.
    destruct (tax2_loop_appends total_taxpayers distribution Tax3.loop_init)
      as [H _].
    destruct (loop_appends total_taxpayers distribution Tax3.loop_init)
      as (_ & H' & _).
    fold (Tax3.slab_loop distribution total_taxpayers) in H'.
    rewrite H, H'. simpl.
    apply Forall2_map_Qeq. intro item. apply tax2_saving.
  - now apply py_div_result_eq.
  - now apply py_div_result_eq.
Qed.
